(** * Jira issue agent (src/agent.py): a shallow embedding and its properties

    The agent answers a question either by looking one issue up by key or by
    searching, through an external tool provider, and renders the answer as
    text.  The provider's answers are JSON-like Python objects that the code
    walks with chained [.get] calls, so the embedding keeps Python's dynamic
    behaviour: [.get] on something that is not a dict raises, a key that is
    present with value [None] is returned as [None], and so on.

    Texts are [string]s whose characters are read as code points below 256;
    the character classes of the identifier pattern are Python 3's classes on
    that range.  A line break inside one of the source's string literals is
    the newline character [nl].  The [async] methods run one after the other:
    each [await] is a call that returns before the next statement. *)

From Stdlib Require Import String Ascii List ZArith Bool Lia DecimalString PrimFloat.
Import ListNotations.
Open Scope string_scope.

(** ** Python values and the exceptions the code can meet *)

Module Py.

#[warnings="-register-all"]
Inductive value : Type :=
| VNone
| VBool (b : bool)
| VInt (n : Z)
| VFloat (f : float)
| VStr (s : string)
| VList (l : list value)
| VDict (d : list (string * value)).

Inductive exn_class : Type :=
| ProviderException   (* any subclass of Exception raised by the provider call *)
| AttributeError
| TypeError
| KeyError.

(** An exception is its class and the text [str(e)] gives. *)
Record exn : Type := Raise { exn_cls : exn_class; exn_msg : string }.

Inductive res (A : Type) : Type :=
| Ok (a : A)
| Err (e : exn).
Arguments Ok {A} a.
Arguments Err {A} e.

Definition bind {A B} (m : res A) (k : A -> res B) : res B :=
  match m with
  | Ok a => k a
  | Err e => Err e
  end.

Definition type_name (v : value) : string :=
  match v with
  | VNone => "NoneType"
  | VBool _ => "bool"
  | VInt _ => "int"
  | VFloat _ => "float"
  | VStr _ => "str"
  | VList _ => "list"
  | VDict _ => "dict"
  end.

(** Dicts keep insertion order; a key is looked up by its first entry (a
    Python dict holds each key once; nothing below depends on that). *)
Fixpoint lookup {A} (k : string) (d : list (string * A)) : option A :=
  match d with
  | [] => None
  | (k', x) :: d' => if String.eqb k k' then Some x else lookup k d'
  end.

Definition has_key {A} (k : string) (d : list (string * A)) : bool :=
  match lookup k d with Some _ => true | None => false end.

Definition no_attribute (v : value) (attr : string) : exn :=
  Raise AttributeError
        ("'" ++ type_name v ++ "' object has no attribute '" ++ attr ++ "'").

(** [v.get(k, default)]: only a dict has the method. *)
Definition get (v : value) (k : string) (default : value) : res value :=
  match v with
  | VDict d => Ok (match lookup k d with Some x => x | None => default end)
  | _ => Err (no_attribute v "get")
  end.

(** [v == s] for a string literal [s]. *)
Definition eq_str (v : value) (s : string) : bool :=
  match v with
  | VStr t => String.eqb t s
  | _ => false
  end.

Fixpoint contains (needle hay : string) : bool :=
  prefix needle hay ||
  match hay with
  | EmptyString => false
  | String _ hay' => contains needle hay'
  end.

(** [s in v] for a string [s]: key membership on a dict, substring test on a
    str, element test on a list; other objects are not containers. *)
Definition str_in (s : string) (v : value) : res bool :=
  match v with
  | VDict d => Ok (has_key s d)
  | VStr t => Ok (contains s t)
  | VList l => Ok (existsb (fun x => eq_str x s) l)
  | _ => Err (Raise TypeError
                ("argument of type '" ++ type_name v ++ "' is not iterable"))
  end.

(** [v[k]] for a string key [k]. *)
Definition getitem (v : value) (k : string) : res value :=
  match v with
  | VDict d =>
      match lookup k d with
      | Some x => Ok x
      | None => Err (Raise KeyError ("'" ++ k ++ "'"))
      end
  | VStr _ => Err (Raise TypeError "string indices must be integers, not 'str'")
  | VList _ => Err (Raise TypeError "list indices must be integers or slices, not str")
  | _ => Err (Raise TypeError ("'" ++ type_name v ++ "' object is not subscriptable"))
  end.

(** Truth value of an object, as [if v] and [not v] take it. *)
Definition truthy (v : value) : bool :=
  match v with
  | VNone => false
  | VBool b => b
  | VInt n => negb (Z.eqb n 0)
  | VFloat f => negb (PrimFloat.eqb f 0%float)
  | VStr s => negb (String.eqb s "")
  | VList l => match l with [] => false | _ => true end
  | VDict d => match d with [] => false | _ => true end
  end.

Definition is_dict (v : value) : bool :=
  match v with VDict _ => true | _ => false end.

(** Lists and dicts cannot be used as dict keys. *)
Definition hashable (v : value) : bool :=
  match v with
  | VList _ | VDict _ => false
  | _ => true
  end.

Definition str_of_nat (n : nat) : string := NilZero.string_of_uint (Nat.to_uint n).
Definition str_of_Z (n : Z) : string := NilZero.string_of_int (Z.to_int n).

Definition nl : string := String "010" EmptyString.

End Py.
Export Py.

Declare Scope res_scope.
Notation "x <- m ;; k" := (Py.bind m (fun x => k))
  (at level 61, m at next level, right associativity) : res_scope.
Open Scope res_scope.

(** ** The identifier pattern: [re.search(r'\b[A-Z]+-\d+\b', text)] *)

Module Pattern.

Definition code (c : ascii) : nat := nat_of_ascii c.

Definition between (lo hi n : nat) : bool := (lo <=? n)%nat && (n <=? hi)%nat.

(** [[A-Z]] *)
Definition is_upper (c : ascii) : bool := between 65 90 (code c).

(** [\d]: below 256 the only decimal digits are 0-9. *)
Definition is_digit (c : ascii) : bool := between 48 57 (code c).

(** [\w]: alphanumerics and the underscore; below 256 the alphanumerics
    beyond ASCII are the Latin-1 letters, ordinal indicators, the micro sign,
    superscript digits and vulgar fractions. *)
Definition is_word (c : ascii) : bool :=
  let n := code c in
  between 48 57 n || between 65 90 n || between 97 122 n || (n =? 95)%nat ||
  (n =? 170)%nat || between 178 179 n || (n =? 181)%nat ||
  between 185 186 n || between 188 190 n ||
  between 192 214 n || between 216 246 n || between 248 255 n.

Definition word_opt (c : option ascii) : bool :=
  match c with Some c => is_word c | None => false end.

(** [\b] between two neighbouring positions: exactly one side is a word
    character; beyond either end of the text there is none. *)
Definition word_boundary (prev next : option ascii) : bool :=
  xorb (word_opt prev) (word_opt next).

Definition head (s : string) : option ascii :=
  match s with EmptyString => None | String c _ => Some c end.

Fixpoint last (prev : option ascii) (s : string) : option ascii :=
  match s with EmptyString => prev | String c s' => last (Some c) s' end.

(** Longest prefix of characters in class [p], and what follows it. *)
Fixpoint span (p : ascii -> bool) (s : string) : string * string :=
  match s with
  | EmptyString => (EmptyString, EmptyString)
  | String c s' =>
      if p c then let '(a, b) := span p s' in (String c a, b)
      else (EmptyString, s)
  end.

(** One attempt of the pattern at a position: [prev] is the character before
    it, [s] the text from it.  Both repetitions are greedy; giving characters
    back can never help, since what then follows a shorter run is again a
    letter (not the hyphen) or a digit (no boundary). *)
Definition match_here (prev : option ascii) (s : string) : option string :=
  if word_boundary prev (head s) then
    let '(letters, r1) := span is_upper s in
    match letters, r1 with
    | String _ _, String c r2 =>
        if Ascii.eqb c "-" then
          let '(digits, r3) := span is_digit r2 in
          match digits with
          | String _ _ =>
              if word_boundary (last None digits) (head r3)
              then Some (letters ++ "-" ++ digits)
              else None
          | EmptyString => None
          end
        else None
    | _, _ => None
    end
  else None.

(** [re.search]: the attempt is made at each position from the left. *)
Fixpoint search_from (prev : option ascii) (s : string) : option string :=
  match match_here prev s with
  | Some m => Some m
  | None =>
      match s with
      | EmptyString => None
      | String c s' => search_from (Some c) s'
      end
  end.

(** *** The pattern, declaratively *)

Fixpoint all_chars (p : ascii -> bool) (s : string) : bool :=
  match s with
  | EmptyString => true
  | String c s' => p c && all_chars p s'
  end.

(** [m] has the identifier's shape: one or more uppercase letters, a hyphen,
    one or more digits. *)
Definition key_shape (m : string) : Prop :=
  exists letters digits,
    m = letters ++ "-" ++ digits /\
    letters <> "" /\ all_chars is_upper letters = true /\
    digits <> "" /\ all_chars is_digit digits = true.

(** The text [pre ++ m ++ post] has a substring of the identifier's shape at
    [m], with a word boundary on either side of it. *)
Definition key_match_at (pre m post : string) : Prop :=
  key_shape m /\
  word_boundary (last None pre) (head (m ++ post)) = true /\
  word_boundary (last None m) (head post) = true.

End Pattern.

(** [_extract_issue_key]: [match.group(0) if match else None]. *)
Definition _extract_issue_key (text : string) : option string :=
  Pattern.search_from None text.

(** ** The agent's effects: calls to the tool provider *)

(** One provider call: the tool's name and its argument object. *)
Definition call : Type := (string * value)%type.

(** What [mcp_client.call_tool] does: return an object, or raise an exception
    (a subclass of [Exception]) whose text is [msg]. *)
Inductive outcome : Type :=
| Returns (v : value)
| Raises (msg : string).

(** The provider: its answer may depend on the calls made before. *)
Definition provider : Type := list call -> string -> value -> outcome.

(** An [async def] method runs against the log of provider calls made so far
    and ends in a value or an exception. *)
Definition M (A : Type) : Type := list call -> list call * res A.

Definition ret {A} (a : A) : M A := fun log => (log, Ok a).

Definition bindM {A B} (m : M A) (k : A -> M B) : M B :=
  fun log =>
    match m log with
    | (log', Ok a) => k a log'
    | (log', Err e) => (log', Err e)
    end.

Definition lift {A} (r : res A) : M A := fun log => (log, r).

(** [try: body  except Exception as e: handler e] *)
Definition try_except {A} (body : M A) (handler : exn -> M A) : M A :=
  fun log =>
    match body log with
    | (log', Ok a) => (log', Ok a)
    | (log', Err e) => handler e log'
    end.

Definition call_tool (mcp_client : provider) (name : string) (args : value) : M value :=
  fun log =>
    ((log ++ [(name, args)])%list,
     match mcp_client log name args with
     | Returns v => Ok v
     | Raises msg => Err (Raise ProviderException msg)
     end).

Definition trace {A} (r : list call * res A) : list call := fst r.
Definition result {A} (r : list call * res A) : res A := snd r.

Declare Scope agent_scope.
Notation "x <~ m ;; k" := (bindM m (fun x => k))
  (at level 61, m at next level, right associativity) : agent_scope.
Open Scope agent_scope.

(** A suggestion entry: a dict from strings to strings. *)
Definition entry : Type := list (string * string).

Definition entry_get (e : entry) (k default : string) : string :=
  match lookup k e with Some x => x | None => default end.

(** ** Suggestion rules *)

Definition priority_scores : list (string * Z) :=
  [("Highest", 5); ("High", 4); ("Medium", 3); ("Low", 2); ("Lowest", 1)]%Z.

(** [priority_scores.get(priority, 0)]: the key must be hashable; only a str
    can equal one of the table's keys. *)
Definition priority_scores_get (priority : value) (default : Z) : res Z :=
  match priority with
  | VStr s => Ok (match lookup s priority_scores with Some n => n | None => default end)
  | VList _ | VDict _ =>
      Err (Raise TypeError ("unhashable type: '" ++ type_name priority ++ "'"))
  | _ => Ok default
  end.

Definition low_entry : entry :=
  [("priority", "low");
   ("suggestion", "This is a low priority issue. Consider addressing after critical items.");
   ("action", "Schedule for next sprint")].

Definition high_entry : entry :=
  [("priority", "high");
   ("suggestion", "This is a high priority issue requiring immediate attention.");
   ("action", "Escalate to team lead and address immediately")].

Definition debugging_entry : entry :=
  [("type", "debugging");
   ("suggestion", "Review recent code changes and check error logs");
   ("action", "Run diagnostic tests and reproduce the issue")].

Definition implementation_entry : entry :=
  [("type", "implementation");
   ("suggestion", "Break down into smaller tasks and estimate effort");
   ("action", "Create subtasks and assign to team members")].

Definition suggest_solutions (issue_data : value) : M (list entry) :=
  let solutions := [] in
  issue_type <~ lift (f <- get issue_data "fields" (VDict []);;
                      t <- get f "issuetype" (VDict []);;
                      get t "name" (VStr ""));;
  priority <~ lift (f <- get issue_data "fields" (VDict []);;
                    p <- get f "priority" (VDict []);;
                    get p "name" (VStr ""));;
  description <~ lift (f <- get issue_data "fields" (VDict []);;
                       get f "description" (VStr ""));;
  score <~ lift (priority_scores_get priority 0);;
  let solutions :=
    if (score <=? 3)%Z then (solutions ++ [low_entry])%list
    else (solutions ++ [high_entry])%list in
  let solutions :=
    if eq_str issue_type "Bug" then (solutions ++ [debugging_entry])%list
    else if eq_str issue_type "Story" then (solutions ++ [implementation_entry])%list
    else solutions in
  ret solutions.

(** ** Lookup client, formatter and dispatcher *)

Definition default_max_results : Z := 10.

(** [process_question]'s second argument, which it never reads. *)
Inductive Context : Type := EmptyContext.

Section Agent.

(** The provider the agent was built with ([self.mcp_client]). *)
Variable mcp_client : provider.

(** The text Python prints for a float, a list or a dict when one is
    interpolated into an f-string. *)
Variable py_repr : value -> string.

(** [str(v)], as an f-string's [{v}] renders it. *)
Definition str (v : value) : string :=
  match v with
  | VStr s => s
  | VNone => "None"
  | VBool true => "True"
  | VBool false => "False"
  | VInt n => str_of_Z n
  | _ => py_repr v
  end.

Definition search_jira_issues (query : string) (max_results : Z) : M value :=
  try_except
    (response <~ call_tool mcp_client "atlassian_search_issues"
                   (VDict [("jql", VStr query); ("max_results", VInt max_results)]);;
     lift (get response "issues" (VList [])))
    (fun e => ret (VDict [("error", VStr ("Failed to search issues: " ++ exn_msg e))])).

Definition get_issue_details (issue_key : string) : M value :=
  try_except
    (response <~ call_tool mcp_client "atlassian_get_issue"
                   (VDict [("issue_key", VStr issue_key)]);;
     ret response)
    (fun e => ret (VDict [("error", VStr ("Failed to get issue details: " ++ exn_msg e))])).

(** The numbered list of [_format_response]: [enumerate(solutions, 1)]. *)
Fixpoint format_solutions (idx : nat) (solutions : list entry) (response : string) : string :=
  match solutions with
  | [] => response
  | solution :: rest =>
      let response :=
        response ++ str_of_nat idx ++ ". "
                 ++ entry_get solution "suggestion" "No suggestion" ++ nl in
      let response :=
        response ++ "   Action: " ++ entry_get solution "action" "No action" ++ nl ++ nl in
      format_solutions (S idx) rest response
  end.

Definition _format_response (issue_data : value) (solutions : list entry) : res string :=
  issue_key <- get issue_data "key" (VStr "Unknown");;
  fields <- get issue_data "fields" (VDict []);;
  summary <- get fields "summary" (VStr "No summary");;
  let response := "**Issue: " ++ str issue_key ++ "**" ++ nl in
  let response := response ++ "Summary: " ++ str summary ++ nl ++ nl in
  let response := response ++ "**Suggested Solutions:**" ++ nl in
  Ok (format_solutions 1 solutions response).

(** [len(results)] *)
Definition len (v : value) : res nat :=
  match v with
  | VList l => Ok (List.length l)
  | VDict d => Ok (List.length d)
  | VStr s => Ok (String.length s)
  | _ => Err (Raise TypeError ("object of type '" ++ type_name v ++ "' has no len()"))
  end.

Fixpoint chars (s : string) : list value :=
  match s with
  | EmptyString => []
  | String c s' => VStr (String c EmptyString) :: chars s'
  end.

(** The items [for issue in results[:5]] visits. *)
Definition first_five (v : value) : res (list value) :=
  match v with
  | VList l => Ok (firstn 5 l)
  | VStr s => Ok (firstn 5 (chars s))
  | VDict _ => Err (Raise TypeError "unhashable type: 'slice'")
  | _ => Err (Raise TypeError ("'" ++ type_name v ++ "' object is not subscriptable"))
  end.

(** The loop body of [_format_search_results], over the items left. *)
Fixpoint format_issues (issues : list value) (response : string) : res string :=
  match issues with
  | [] => Ok response
  | issue :: rest =>
      key <- get issue "key" (VStr "Unknown");;
      fields <- get issue "fields" (VDict []);;
      summary <- get fields "summary" (VStr "No summary");;
      format_issues rest (response ++ "- " ++ str key ++ ": " ++ str summary ++ nl)
  end.

Definition _format_search_results (results : value) : res string :=
  if negb (truthy results) then Ok "No issues found matching your query."
  else
    n <- len results;;
    let response := "Found " ++ str_of_nat n ++ " issue(s):" ++ nl ++ nl in
    shown <- first_five results;;
    format_issues shown response.

(** The [else] arm of [process_question]: no issue key in the question. *)
Definition search_branch (question : string) : M string :=
  search_results <~ search_jira_issues question default_max_results;;
  failed <~ lift (if is_dict search_results then str_in "error" search_results
                  else Ok false);;
  if failed then
    reason <~ lift (getitem search_results "error");;
    ret ("Search failed: " ++ str reason)
  else lift (_format_search_results search_results).

(** The [if issue_key:] arm of [process_question]. *)
Definition lookup_branch (issue_key : string) : M string :=
  issue_data <~ get_issue_details issue_key;;
  failed <~ lift (str_in "error" issue_data);;
  if negb failed then
    solutions <~ suggest_solutions issue_data;;
    lift (_format_response issue_data solutions)
  else
    reason <~ lift (getitem issue_data "error");;
    ret ("Could not retrieve issue " ++ issue_key ++ ": " ++ str reason).

(** [if issue_key:] is taken for a match object's text that is not empty. *)
Definition process_question (question : string) (context : Context) : M string :=
  match _extract_issue_key question with
  | Some issue_key =>
      if truthy (VStr issue_key) then lookup_branch issue_key
      else search_branch question
  | None => search_branch question
  end.

End Agent.

(** ** What [suggest_solutions] reads from a record *)

(** [issue_data.get("fields", {}).get("issuetype", {}).get("name", "")] *)
Definition issuetype_name (issue_data : value) : res value :=
  f <- get issue_data "fields" (VDict []);;
  t <- get f "issuetype" (VDict []);;
  get t "name" (VStr "").

(** [issue_data.get("fields", {}).get("priority", {}).get("name", "")] *)
Definition priority_name (issue_data : value) : res value :=
  f <- get issue_data "fields" (VDict []);;
  p <- get f "priority" (VDict []);;
  get p "name" (VStr "").

(** An entry of the urgency band carries the "priority" tag, a type-specific
    entry the "type" tag. *)
Definition is_urgency (e : entry) : bool := has_key "priority" e.
Definition is_type_specific (e : entry) : bool := has_key "type" e.

Definition urgency_entry (score : Z) : entry :=
  if (score <=? 3)%Z then low_entry else high_entry.

Definition type_entries (issue_type : value) : list entry :=
  if eq_str issue_type "Bug" then [debugging_entry]
  else if eq_str issue_type "Story" then [implementation_entry]
  else [].

(** The five-level table as the specification words it: a name outside the
    table, or anything that is not a name, scores 0. *)
Definition band_table (priority : value) : Z :=
  match priority with
  | VStr s =>
      if String.eqb s "Highest" then 5
      else if String.eqb s "High" then 4
      else if String.eqb s "Medium" then 3
      else if String.eqb s "Low" then 2
      else if String.eqb s "Lowest" then 1
      else 0
  | _ => 0
  end%Z.

(** A sub-object of a dict under key [k] is absent or itself a dict. *)
Definition bag_ok (k : string) (d : list (string * value)) : bool :=
  match lookup k d with
  | None => true
  | Some v => is_dict v
  end.

(** The name under [d[k]["name"]], when there is one, can be a dict key. *)
Definition name_hashable (k : string) (d : list (string * value)) : bool :=
  match lookup k d with
  | Some (VDict o) =>
      match lookup "name" o with Some v => hashable v | None => true end
  | _ => true
  end.

(** A record has a field bag: a dict whose "fields", when present, is a
    dict.  This is what the formatter needs of it. *)
Definition has_field_bag (r : value) : bool :=
  match r with
  | VDict d => bag_ok "fields" d
  | _ => false
  end.

(** A record of the data model: an identifier and a field bag holding type
    name, priority name, summary and description, every part of which may be
    missing.  In Python terms: a dict; "fields", when present, a dict;
    "issuetype" and "priority" in it, when present, dicts; the priority name,
    when present, a scalar. *)
Definition is_record (r : value) : bool :=
  match r with
  | VDict d =>
      match lookup "fields" d with
      | None => true
      | Some (VDict f) =>
          bag_ok "issuetype" f && bag_ok "priority" f && name_hashable "priority" f
      | Some _ => false
      end
  | _ => false
  end.

(** Sample records. *)
Definition record_of (key summary description : string) (issuetype priority : value) : value :=
  VDict [("key", VStr key);
         ("fields", VDict [("summary", VStr summary);
                           ("description", VStr description);
                           ("issuetype", VDict [("name", issuetype)]);
                           ("priority", VDict [("name", priority)])])].

Definition bug_high : value :=
  record_of "SUP-129" "Login fails" "Users cannot log in" (VStr "Bug") (VStr "High").

Definition bare_record : value := VDict [("key", VStr "SUP-7")].

Definition lowercase_bug : value :=
  record_of "SUP-1" "Crash" "" (VStr "bug") (VStr "Low").

(** Two records with the same type and priority names and nothing else in
    common. *)
Definition story_low_a : value :=
  record_of "SUP-10" "Export to CSV" "As a user I want exports" (VStr "Story") (VStr "Low").

Definition story_low_b : value :=
  VDict [("fields", VDict [("priority", VDict [("name", VStr "Low"); ("id", VInt 4)]);
                           ("description", VList [VStr "rich"; VStr "text"]);
                           ("issuetype", VDict [("name", VStr "Story")]);
                           ("summary", VNone)]);
         ("key", VStr "OPS-77")].

(** ** What the formatter shows of a record *)

Definition field_or (d : list (string * value)) (k : string) (default : value) : value :=
  match lookup k d with Some x => x | None => default end.

(** The key shown for a record, ["Unknown"] when it has none. *)
Definition shown_key (r : value) : value :=
  match r with
  | VDict d => field_or d "key" (VStr "Unknown")
  | _ => VStr "Unknown"
  end.

(** The summary shown for a record, ["No summary"] when it has none. *)
Definition shown_summary (r : value) : value :=
  match r with
  | VDict d =>
      match lookup "fields" d with
      | Some (VDict f) => field_or f "summary" (VStr "No summary")
      | _ => VStr "No summary"
      end
  | _ => VStr "No summary"
  end.

(** One line of the search listing. *)
Definition issue_line (py_repr : value -> string) (r : value) : string :=
  "- " ++ str py_repr (shown_key r) ++ ": " ++ str py_repr (shown_summary r) ++ nl.

(** Seven records, keyed T-1 to T-7. *)
Definition seven_records : list value :=
  map (fun n => record_of ("T-" ++ str_of_nat n) ("Task " ++ str_of_nat n) ""
                          (VStr "Task") (VStr "Medium"))
      (seq 1 7).

(** A renderer for the examples, which interpolate strings only. *)
Definition plain_repr : value -> string := fun _ => "<object>".

(** ** Provider calls and what the lookup client makes of their outcome *)

Definition lookup_call (k : string) : call :=
  ("atlassian_get_issue", VDict [("issue_key", VStr k)]).

Definition search_call (q : string) (limit : Z) : call :=
  ("atlassian_search_issues", VDict [("jql", VStr q); ("max_results", VInt limit)]).

(** What [get_issue_details] hands back for a provider outcome. *)
Definition issue_data_of (o : outcome) : value :=
  match o with
  | Returns v => v
  | Raises msg => VDict [("error", VStr ("Failed to get issue details: " ++ msg))]
  end.

(** What [search_jira_issues] hands back for a provider outcome. *)
Definition search_results_of (o : outcome) : value :=
  match o with
  | Returns (VDict d) => field_or d "issues" (VList [])
  | Returns v =>
      VDict [("error", VStr ("Failed to search issues: " ++ exn_msg (no_attribute v "get")))]
  | Raises msg => VDict [("error", VStr ("Failed to search issues: " ++ msg))]
  end.


(** ** Sample providers *)

(** Answers a lookup with a Bug of priority High and a search with nothing. *)
Definition demo_provider : provider := fun _ name _ =>
  if String.eqb name "atlassian_get_issue" then Returns bug_high
  else Returns (VDict [("issues", VList [])]).


(** Fails every call. *)
Definition failing_provider : provider := fun _ _ _ => Raises "connection refused".

(** Answers a lookup with a record that carries an "error" field of its own. *)
Definition error_field_provider : provider := fun _ _ _ =>
  Returns (VDict [("key", VStr "SUP-129");
                  ("error", VStr "stack trace attached");
                  ("fields", VDict [("summary", VStr "Login fails")])]).

(** ** Well-shaped provider responses *)

(** A lookup response the dispatcher can render: a dict that either carries
    an "error" key or is a record of the data model. *)
Definition lookup_response_ok (v : value) : bool :=
  match v with
  | VDict d => has_key "error" d || is_record v
  | _ => false
  end.

(** Search results the dispatcher can render: a list whose first five items
    have a field bag, a dict with an "error" key, or anything falsy. *)
Definition results_ok (r : value) : bool :=
  match r with
  | VList l => forallb has_field_bag (firstn 5 l)
  | VDict d => has_key "error" d || negb (truthy r)
  | _ => negb (truthy r)
  end.

(** A search response whose "issues", when it is a dict, are such results; a
    response that is not a dict is turned into a failure by the lookup
    client itself. *)
Definition search_response_ok (v : value) : bool :=
  match v with
  | VDict d => results_ok (field_or d "issues" (VList []))
  | _ => true
  end.


(** ** Further reading aids for the formatter and the lookup client *)

(** One numbered item of [_format_response]: the entry's suggestion and
    action, each with the fallback the code gives when the key is absent. *)
Definition solution_item (numbered : nat * entry) : string :=
  let '(idx, solution) := numbered in
  str_of_nat idx ++ ". " ++ entry_get solution "suggestion" "No suggestion" ++ nl
    ++ "   Action: " ++ entry_get solution "action" "No action" ++ nl ++ nl.

(** [enumerate(solutions, 1)] *)
Definition enumerate_from (start : nat) (solutions : list entry) : list (nat * entry) :=
  combine (seq start (List.length solutions)) solutions.

(** What [_format_search_results] can render: anything falsy, or a list
    whose first five items have a field bag. *)
Definition listing_ok (r : value) : bool :=
  negb (truthy r) ||
  match r with
  | VList l => forallb has_field_bag (firstn 5 l)
  | _ => false
  end.

(** Objects on which [in] raises: neither dict, str nor list. *)
Definition is_container (v : value) : bool :=
  match v with
  | VDict _ | VStr _ | VList _ => true
  | _ => false
  end.

(** Answers every call with [None]. *)
Definition none_provider : provider := fun _ _ _ => Returns VNone.

(** Answers a search with twelve issues although ten were asked for. *)
Definition generous_provider : provider := fun _ _ _ =>
  Returns (VDict [("total", VInt 12);
                  ("issues", VList (map (fun n => record_of ("T-" ++ str_of_nat n)
                                                            ("Task " ++ str_of_nat n) ""
                                                            (VStr "Task") (VStr "Medium"))
                                        (seq 1 12)))]).

(** Answers a search with a body that has no "issues". *)
Definition empty_body_provider : provider := fun _ _ _ =>
  Returns (VDict [("total", VInt 0)]).

(** Seven items of which only the first five are records. *)
Definition five_records_and_junk : list value :=
  (firstn 5 seven_records ++ [VNone; VInt 3])%list.

(** Answers a search with no issues and an "error" field of its own. *)
Definition noisy_provider : provider := fun _ _ _ =>
  Returns (VDict [("error", VStr "partial outage"); ("issues", VList [])]).

(** ** Lemmas on the suggestion rules *)

(** [suggest_solutions] makes no provider call, and its outcome is the
    urgency entry of the priority name followed by the entries of the type
    name, whenever both lookups and the table lookup go through. *)
Lemma suggest_solutions_run (r : value) (log : list call) :
  suggest_solutions r log =
  (log, t <- issuetype_name r;;
        p <- priority_name r;;
        score <- priority_scores_get p 0;;
        Ok (urgency_entry score :: type_entries t)).
Proof.
  unfold suggest_solutions, issuetype_name, priority_name, bindM, lift, ret.
  destruct (get r "fields" (VDict [])) as [f|e] eqn:Hf; simpl; [|reflexivity].
  destruct (get f "issuetype" (VDict [])) as [t|e] eqn:Ht; simpl; [|reflexivity].
  destruct (get t "name" (VStr "")) as [tn|e] eqn:Htn; simpl; [|reflexivity].
  destruct (get f "priority" (VDict [])) as [p|e] eqn:Hp; simpl; [|reflexivity].
  destruct (get p "name" (VStr "")) as [pn|e] eqn:Hpn; simpl; [|reflexivity].
  assert (Hd : exists d, get f "description" (VStr "") = Ok d).
  { destruct f; simpl in Ht; try discriminate. eexists; reflexivity. }
  destruct Hd as [d ->]; simpl.
  destruct (priority_scores_get pn 0) as [score|e]; simpl; [|reflexivity].
  unfold urgency_entry, type_entries.
  destruct (score <=? 3)%Z, (eq_str tn "Bug"), (eq_str tn "Story"); reflexivity.
Qed.

Lemma is_record_names (r : value) :
  is_record r = true ->
  exists t p, issuetype_name r = Ok t /\ priority_name r = Ok p /\ hashable p = true.
Proof.
  unfold is_record, issuetype_name, priority_name, bag_ok, name_hashable.
  destruct r as [| | | | | |d]; try discriminate; simpl.
  destruct (lookup "fields" d) as [[| | | | | |f]|]; try discriminate; simpl.
  - intros H. apply andb_prop in H as [H Hn]. apply andb_prop in H as [Ht Hp].
    destruct (lookup "issuetype" f) as [[| | | | | |t]|]; try discriminate; simpl;
      destruct (lookup "priority" f) as [[| | | | | |p]|]; try discriminate; simpl;
      try destruct (lookup "name" p); eauto.
  - intros _. eauto.
Qed.

(** The converse: outside the records of the data model the rules raise, so
    [is_record] is exactly the domain on which suggestions are returned. *)
Lemma suggest_solutions_domain (r : value) (log : list call) (sols : list entry) :
  result (suggest_solutions r log) = Ok sols -> is_record r = true.
Proof.
  rewrite suggest_solutions_run. unfold result; simpl.
  unfold is_record, issuetype_name, priority_name, bag_ok, name_hashable.
  destruct r as [| | | | | |d]; try discriminate; simpl.
  destruct (lookup "fields" d) as [[| | | | | |f]|]; try discriminate; simpl; [|reflexivity].
  destruct (lookup "issuetype" f) as [[| | | | | |t]|]; try discriminate; simpl;
    destruct (lookup "priority" f) as [[| | | | | |p]|]; try discriminate; simpl;
    try reflexivity;
    destruct (lookup "name" p) as [[]|]; simpl; try discriminate; reflexivity.
Qed.

Lemma priority_scores_get_band (p : value) :
  hashable p = true -> priority_scores_get p 0 = Ok (band_table p).
Proof.
  destruct p; simpl; try reflexivity; try discriminate.
  intros _. unfold priority_scores, lookup.
  destruct (s =? "Highest"); [reflexivity|].
  destruct (s =? "High"); [reflexivity|].
  destruct (s =? "Medium"); [reflexivity|].
  destruct (s =? "Low"); [reflexivity|].
  destruct (s =? "Lowest"); reflexivity.
Qed.

Lemma suggest_solutions_record (r : value) (log : list call) :
  is_record r = true ->
  exists t p,
    issuetype_name r = Ok t /\ priority_name r = Ok p /\
    suggest_solutions r log =
      (log, Ok (urgency_entry (band_table p) :: type_entries t)).
Proof.
  intros H. destruct (is_record_names r H) as (t & p & Ht & Hp & Hh).
  exists t, p. repeat split; trivial.
  rewrite suggest_solutions_run, Ht, Hp. simpl.
  rewrite (priority_scores_get_band p Hh). reflexivity.
Qed.

Lemma urgency_entry_tag (score : Z) :
  is_urgency (urgency_entry score) = true /\
  is_type_specific (urgency_entry score) = false.
Proof. unfold urgency_entry. destruct (score <=? 3)%Z; split; reflexivity. Qed.

Lemma type_entries_tag (t : value) :
  forallb is_type_specific (type_entries t) = true /\
  filter is_urgency (type_entries t) = [].
Proof.
  unfold type_entries.
  destruct (eq_str t "Bug"); [split; reflexivity|].
  destruct (eq_str t "Story"); split; reflexivity.
Qed.



(** ** Claims on the suggestion rules *)





(** The specification's examples of type names that add nothing. *)
Example no_second_entry_examples :
  result (suggest_solutions lowercase_bug []) = Ok [low_entry] /\
  result (suggest_solutions (record_of "SUP-2" "Plan" "" (VStr "Epic") (VStr "Low")) [])
    = Ok [low_entry] /\
  result (suggest_solutions bare_record []) = Ok [low_entry].
Proof. repeat split. Qed.

(** C4. For every record (of the data model, [is_record]), the list
    [suggest_solutions] returns starts with the
    urgency entry, followed by the type-specific entry when there is one: it
    has one or two entries, and nothing but the first is an urgency entry.
    For a record of type "Bug" and priority "High" it is the escalating entry
    followed by the debugging entry. *)
Theorem suggest_solutions_order (r : value) (log : list call) :
  is_record r = true ->
  exists u rest,
    result (suggest_solutions r log) = Ok (u :: rest) /\
    is_urgency u = true /\ is_type_specific u = false /\
    forallb is_type_specific rest = true /\ filter is_urgency rest = [] /\
    (1 <= List.length (u :: rest) <= 2)%nat /\
    (issuetype_name r = Ok (VStr "Bug") -> priority_name r = Ok (VStr "High") ->
     result (suggest_solutions r log) = Ok [high_entry; debugging_entry]).
Proof.
  intros H.
  destruct (suggest_solutions_record r log H) as (t & p & Ht & Hp & Hrun).
  exists (urgency_entry (band_table p)), (type_entries t).
  rewrite Hrun. unfold result; simpl.
  split; [reflexivity|].
  split; [apply urgency_entry_tag|]. split; [apply urgency_entry_tag|].
  split; [apply type_entries_tag|]. split; [apply type_entries_tag|].
  split.
  - unfold type_entries.
    destruct (eq_str t "Bug"); [simpl; lia|].
    destruct (eq_str t "Story"); simpl; lia.
  - intros Hb Hh. rewrite Ht in Hb. rewrite Hp in Hh.
    injection Hb as ->. injection Hh as ->. reflexivity.
Qed.

Lemma suggest_solutions_order_witness :
  is_record bug_high = true /\
  issuetype_name bug_high = Ok (VStr "Bug") /\
  priority_name bug_high = Ok (VStr "High") /\
  result (suggest_solutions bug_high []) = Ok [high_entry; debugging_entry].
Proof.
  split; [reflexivity|]. split; [reflexivity|]. split; [reflexivity|].
  destruct (suggest_solutions_order bug_high [] eq_refl) as (u & rest & _ & _ & _ & _ & _ & _ & Hex).
  apply Hex; reflexivity.
Defined.

(** C8. [suggest_solutions] is deterministic: called on the same record it
    returns the same ordered list, whatever the agent did before the call,
    and it makes no provider call of its own. *)
Theorem suggest_solutions_deterministic (r : value) (log1 log2 : list call) :
  result (suggest_solutions r log1) = result (suggest_solutions r log2) /\
  trace (suggest_solutions r log1) = log1.
Proof.
  rewrite !suggest_solutions_run. split; reflexivity.
Qed.

(** C9. The outcome of [suggest_solutions] depends on the record only through
    its priority name and its issue type name: two records on which these two
    lookups agree get the same suggestions, whatever their descriptions,
    summaries and keys are. *)
Theorem suggest_solutions_noninterference (r1 r2 : value) (log1 log2 : list call) :
  issuetype_name r1 = issuetype_name r2 ->
  priority_name r1 = priority_name r2 ->
  result (suggest_solutions r1 log1) = result (suggest_solutions r2 log2).
Proof.
  intros Ht Hp. rewrite !suggest_solutions_run. unfold result; simpl.
  now rewrite Ht, Hp.
Qed.

Lemma suggest_solutions_noninterference_witness :
  issuetype_name story_low_a = issuetype_name story_low_b /\
  priority_name story_low_a = priority_name story_low_b /\
  story_low_a <> story_low_b /\
  result (suggest_solutions story_low_a []) =
  result (suggest_solutions story_low_b [("atlassian_get_issue", VNone)]).
Proof.
  split; [reflexivity|]. split; [reflexivity|]. split; [discriminate|].
  apply (suggest_solutions_noninterference story_low_a story_low_b); reflexivity.
Defined.

(** ** Claims on the formatter *)

Lemma append_assoc (a b c : string) : (a ++ b) ++ c = a ++ (b ++ c).
Proof. induction a; simpl; congruence. Qed.

Lemma append_nil_r (a : string) : a ++ "" = a.
Proof. induction a; simpl; congruence. Qed.

Lemma is_record_has_field_bag (r : value) :
  is_record r = true -> has_field_bag r = true.
Proof.
  destruct r as [| | | | | |d]; simpl; try discriminate. unfold bag_ok.
  destruct (lookup "fields" d) as [[]|]; simpl; try discriminate; reflexivity.
Qed.

Lemma format_issues_step (py_repr : value -> string) (r : value) (rest : list value)
      (response : string) :
  has_field_bag r = true ->
  format_issues py_repr (r :: rest) response =
  format_issues py_repr rest (response ++ issue_line py_repr r).
Proof.
  intros Hr. unfold issue_line, shown_key, shown_summary, field_or.
  destruct r as [| | | | | |d]; try discriminate. simpl in Hr |- *.
  unfold bag_ok in Hr.
  destruct (lookup "fields" d) as [[| | | | | |f]|]; try discriminate; reflexivity.
Qed.

Lemma format_issues_lines (py_repr : value -> string) (issues : list value) :
  forallb has_field_bag issues = true ->
  forall response,
    format_issues py_repr issues response =
    Ok (response ++ String.concat "" (map (issue_line py_repr) issues)).
Proof.
  induction issues as [|r rest IH]; intros Hall response.
  - simpl. now rewrite append_nil_r.
  - simpl in Hall. apply andb_prop in Hall as [Hr Hrest].
    rewrite (format_issues_step _ _ _ _ Hr), (IH Hrest). f_equal.
    rewrite append_assoc. f_equal.
    destruct rest; simpl; [now rewrite append_nil_r | reflexivity].
Qed.

(** An item without a field bag among those shown makes the listing raise. *)
Lemma format_issues_raises (py_repr : value -> string) (issues : list value) :
  forallb has_field_bag issues = false ->
  forall response, exists e, format_issues py_repr issues response = Err e.
Proof.
  induction issues as [|r rest IH]; intros Hall response; [discriminate|].
  simpl in Hall. destruct (has_field_bag r) eqn:Hr.
  - rewrite (format_issues_step _ _ _ _ Hr). now apply IH.
  - clear Hall IH. destruct r as [| | | | | |d]; simpl; eauto.
    simpl in Hr. unfold bag_ok in Hr.
    destruct (lookup "fields" d) as [[]|]; simpl; try discriminate; eauto.
Qed.

(** C5. [_format_search_results] on the empty sequence returns the sentence
    "No issues found matching your query."; on a non-empty sequence of [n]
    records it returns a header with the full count [n] followed by one line,
    key and summary, for each of the first five records and nothing for the
    others.  (Of a record only its field bag matters here, and only for the
    five that are shown.) *)
Theorem format_search_results_listing (py_repr : value -> string) (rs : list value) :
  rs <> [] ->
  forallb has_field_bag (firstn 5 rs) = true ->
  _format_search_results py_repr (VList []) = Ok "No issues found matching your query." /\
  _format_search_results py_repr (VList rs) =
    Ok (("Found " ++ str_of_nat (List.length rs) ++ " issue(s):" ++ nl ++ nl)
        ++ String.concat "" (map (issue_line py_repr) (firstn 5 rs))) /\
  List.length (firstn 5 rs) = Nat.min 5 (List.length rs).
Proof.
  intros Hne Hall. split; [reflexivity|]. split.
  - unfold _format_search_results.
    destruct rs as [|r rs']; [now elim Hne|].
    cbn [truthy negb len first_five Py.bind].
    apply format_issues_lines. exact Hall.
  - apply length_firstn.
Qed.

Lemma format_search_results_listing_witness :
  seven_records <> [] /\
  forallb has_field_bag (firstn 5 seven_records) = true /\
  List.length seven_records = 7%nat /\
  _format_search_results plain_repr (VList seven_records) =
    Ok ("Found 7 issue(s):" ++ nl ++ nl ++
        "- T-1: Task 1" ++ nl ++
        "- T-2: Task 2" ++ nl ++
        "- T-3: Task 3" ++ nl ++
        "- T-4: Task 4" ++ nl ++
        "- T-5: Task 5" ++ nl).
Proof.
  assert (Hne : seven_records <> []) by discriminate.
  split; [exact Hne|]. split; [reflexivity|]. split; [reflexivity|].
  destruct (format_search_results_listing plain_repr seven_records Hne eq_refl)
    as (_ & H & _).
  rewrite H. reflexivity.
Defined.

(** ** The matcher against the declarative pattern *)

Import Pattern.

Lemma last_app (prev : option ascii) (a b : string) :
  last prev (a ++ b) = last (last prev a) b.
Proof. revert prev. induction a; intros prev; simpl; auto. Qed.

Lemma last_nonempty (p q : option ascii) (s : string) :
  s <> "" -> last p s = last q s.
Proof. destruct s; [congruence|]. reflexivity. Qed.

Lemma last_all_chars (p : ascii -> bool) (s : string) (c0 : ascii) :
  all_chars p s = true -> p c0 = true ->
  exists c, last (Some c0) s = Some c /\ p c = true.
Proof.
  revert c0. induction s as [|c s IH]; intros c0 Hs Hc; simpl in *.
  - eauto.
  - apply andb_prop in Hs as [Hc' Hs]. eauto.
Qed.

Lemma span_sound (p : ascii -> bool) (s a b : string) :
  span p s = (a, b) ->
  s = a ++ b /\ all_chars p a = true /\
  match head b with Some c => p c = false | None => True end.
Proof.
  revert a b. induction s as [|c s IH]; intros a b H; simpl in H.
  - injection H as <- <-. repeat split.
  - destruct (p c) eqn:Hc.
    + destruct (span p s) as [a' b'] eqn:Hs. injection H as <- <-.
      destruct (IH _ _ eq_refl) as (-> & Ha & Hb).
      simpl. rewrite Hc. repeat split; assumption.
    + injection H as <- <-. simpl. repeat split. exact Hc.
Qed.

Lemma span_complete (p : ascii -> bool) (a b : string) :
  all_chars p a = true ->
  match head b with Some c => p c = false | None => True end ->
  span p (a ++ b) = (a, b).
Proof.
  induction a as [|c a IH]; intros Ha Hb; simpl in *.
  - destruct b as [|c b]; simpl in *; [reflexivity|]. now rewrite Hb.
  - apply andb_prop in Ha as [Hc Ha]. now rewrite Hc, (IH Ha Hb).
Qed.

Lemma is_digit_word (c : ascii) : is_digit c = true -> is_word c = true.
Proof. unfold is_digit, is_word. intros ->. reflexivity. Qed.

Lemma is_upper_word (c : ascii) : is_upper c = true -> is_word c = true.
Proof.
  unfold is_upper, is_word. intros ->. now rewrite orb_true_r.
Qed.

Lemma hyphen_not_upper : is_upper "-" = false.
Proof. reflexivity. Qed.

(** An attempt that succeeds found a word-bounded identifier at its
    position. *)
Lemma match_here_sound (prev : option ascii) (s m : string) :
  match_here prev s = Some m ->
  exists post,
    s = m ++ post /\ key_shape m /\
    word_boundary prev (head s) = true /\
    word_boundary (last None m) (head post) = true.
Proof.
  unfold match_here.
  destruct (word_boundary prev (head s)) eqn:Hb; [|discriminate].
  destruct (span is_upper s) as [letters r1] eqn:Hu.
  destruct letters as [|l letters]; [discriminate|].
  destruct r1 as [|c r2]; [discriminate|].
  destruct (Ascii.eqb c "-") eqn:Hc; [|discriminate].
  apply Ascii.eqb_eq in Hc. subst c.
  destruct (span is_digit r2) as [digits r3] eqn:Hd.
  destruct digits as [|d digits]; [discriminate|].
  destruct (word_boundary (last None (String d digits)) (head r3)) eqn:Hb2; [|discriminate].
  intros H. injection H as <-.
  apply span_sound in Hu as (Hs & Hup & _).
  apply span_sound in Hd as (Hr2 & Hdg & _).
  exists r3. split.
  { rewrite Hs, Hr2. simpl. f_equal. rewrite append_assoc. reflexivity. }
  split.
  { exists (String l letters), (String d digits). repeat split; try discriminate; assumption. }
  split; [reflexivity|].
  assert (E : last None (String l letters ++ "-" ++ String d digits)
              = last None (String d digits)).
  { rewrite last_app. reflexivity. }
  simpl in E |- *. rewrite E. exact Hb2.
Qed.

(** Conversely, where a word-bounded identifier starts the attempt finds it,
    and it alone. *)
Lemma match_here_complete (prev : option ascii) (m post : string) :
  key_shape m ->
  word_boundary prev (head (m ++ post)) = true ->
  word_boundary (last None m) (head post) = true ->
  match_here prev (m ++ post) = Some m.
Proof.
  intros (letters & digits & -> & Hl & Hup & Hd & Hdg) Hb1 Hb2.
  unfold match_here. rewrite Hb1.
  rewrite append_assoc.
  rewrite (span_complete is_upper letters (("-" ++ digits) ++ post) Hup)
    by (simpl; exact hyphen_not_upper).
  destruct letters as [|l letters]; [congruence|].
  simpl ((("-" ++ digits) ++ post)). simpl (Ascii.eqb "-" "-").
  cbv iota.
  assert (Hlast : last None (String l letters ++ "-" ++ digits) = last None digits).
  { rewrite last_app. change ("-" ++ digits) with (String "-" digits).
    cbn [last]. now apply last_nonempty. }
  rewrite Hlast in Hb2.
  assert (Hpost : match head post with Some c => is_digit c = false | None => True end).
  { destruct digits as [|d digits]; [congruence|].
    simpl in Hdg. apply andb_prop in Hdg as [Hd0 Hdg].
    destruct (last_all_chars is_digit digits d Hdg Hd0) as (c & Hc & Hcd).
    simpl in Hb2. rewrite Hc in Hb2. unfold word_boundary in Hb2. simpl in Hb2.
    rewrite (is_digit_word c Hcd) in Hb2.
    destruct (head post) as [c'|]; [|exact I].
    simpl in Hb2. destruct (is_digit c') eqn:E; [|reflexivity].
    rewrite (is_digit_word c' E) in Hb2. discriminate. }
  rewrite (span_complete is_digit digits post Hdg Hpost).
  destruct digits as [|d digits]; [congruence|].
  now rewrite Hb2.
Qed.

Lemma append_inv_head (a x y : string) : a ++ x = a ++ y -> x = y.
Proof. induction a; simpl; intros H; [exact H|]. injection H as H. auto. Qed.

Lemma search_from_Some (s : string) :
  forall prev m,
    search_from prev s = Some m ->
    exists a rest,
      s = a ++ rest /\ match_here (last prev a) rest = Some m /\
      forall a' rest',
        s = a' ++ rest' -> (String.length a' < String.length a)%nat ->
        match_here (last prev a') rest' = None.
Proof.
  induction s as [|c s IH]; intros prev m H.
  - simpl in H. destruct (match_here prev "") eqn:Hm; [|discriminate].
    injection H as ->. exists "", "". repeat split; trivial.
    intros a' rest' _ Hlt. simpl in Hlt. lia.
  - cbn [search_from] in H. destruct (match_here prev (String c s)) eqn:Hm.
    + injection H as ->. exists "", (String c s). repeat split; trivial.
      intros a' rest' _ Hlt. simpl in Hlt. lia.
    + destruct (IH _ _ H) as (a & rest & Hs & Hhere & Hmin).
      exists (String c a), rest. split; [simpl; now rewrite Hs|].
      split; [exact Hhere|].
      intros a' rest' Heq Hlt. destruct a' as [|c' a'].
      * simpl in Heq. subst rest'. exact Hm.
      * simpl in Heq. injection Heq as <- Heq. simpl in Hlt |- *.
        apply Hmin; [exact Heq | lia].
Qed.


(** The key [_extract_issue_key] returns is the word-bounded identifier at
    the leftmost position where one starts, and the only one starting
    there. *)
Lemma extract_issue_key_leftmost (q m : string) :
  _extract_issue_key q = Some m ->
  exists pre post,
    q = pre ++ m ++ post /\ key_match_at pre m post /\
    (forall pre' m' post',
        q = pre' ++ m' ++ post' -> key_match_at pre' m' post' ->
        (String.length pre <= String.length pre')%nat) /\
    (forall m' post',
        q = pre ++ m' ++ post' -> key_match_at pre m' post' -> m' = m).
Proof.
  unfold _extract_issue_key. intros H.
  destruct (search_from_Some q None m H) as (pre & rest & Hq & Hhere & Hmin).
  destruct (match_here_sound _ _ _ Hhere) as (post & Hrest & Hshape & Hb1 & Hb2).
  subst rest. exists pre, post. split; [exact Hq|].
  split; [repeat split; assumption|]. split.
  - intros pre' m' post' Hq' (Hs' & Hb1' & Hb2').
    destruct (Nat.le_gt_cases (String.length pre) (String.length pre')) as [|Hlt]; [assumption|].
    specialize (Hmin pre' (m' ++ post') Hq' Hlt).
    rewrite (match_here_complete _ _ _ Hs' Hb1' Hb2') in Hmin. discriminate.
  - intros m' post' Hq' (Hs' & Hb1' & Hb2').
    rewrite Hq in Hq'. apply append_inv_head in Hq'.
    pose proof (match_here_complete _ _ _ Hs' Hb1' Hb2') as Hc.
    rewrite <- Hq', Hhere in Hc. now injection Hc.
Qed.


Lemma extract_issue_key_nonempty (q m : string) :
  _extract_issue_key q = Some m -> truthy (VStr m) = true.
Proof.
  intros H. destruct (extract_issue_key_leftmost q m H)
    as (pre & post & _ & ((l & d & -> & Hl & _) & _) & _).
  destruct l; [congruence|reflexivity].
Qed.


(** ** The dispatcher's two branches *)

Lemma get_issue_details_run (mcp_client : provider) (k : string) (log : list call) :
  get_issue_details mcp_client k log =
  ((log ++ [lookup_call k])%list,
   Ok (issue_data_of (mcp_client log "atlassian_get_issue" (VDict [("issue_key", VStr k)])))).
Proof.
  unfold get_issue_details, try_except, bindM, call_tool, ret, lookup_call.
  destruct (mcp_client log _ _); reflexivity.
Qed.

(** The lookup branch makes the one lookup call; what it returns is decided
    by the issue data alone. *)
Lemma lookup_branch_run (mcp_client : provider) (py_repr : value -> string)
      (k : string) (log : list call) :
  lookup_branch mcp_client py_repr k log =
  ((log ++ [lookup_call k])%list,
   let issue_data :=
     issue_data_of (mcp_client log "atlassian_get_issue" (VDict [("issue_key", VStr k)])) in
   failed <- str_in "error" issue_data;;
   if negb failed then
     solutions <- result (suggest_solutions issue_data []);;
     _format_response py_repr issue_data solutions
   else
     reason <- getitem issue_data "error";;
     Ok ("Could not retrieve issue " ++ k ++ ": " ++ str py_repr reason)).
Proof.
  unfold lookup_branch, bindM at 1. rewrite get_issue_details_run.
  set (v := issue_data_of _). cbv zeta.
  unfold bindM, lift, ret.
  destruct (str_in "error" v) as [[|]|e]; simpl; try reflexivity.
  - destruct (getitem v "error"); reflexivity.
  - rewrite !suggest_solutions_run. unfold result; simpl.
    destruct (Py.bind (issuetype_name v) _); reflexivity.
Qed.

Lemma search_jira_issues_run (mcp_client : provider) (q : string) (limit : Z)
      (log : list call) :
  search_jira_issues mcp_client q limit log =
  ((log ++ [search_call q limit])%list,
   Ok (search_results_of
         (mcp_client log "atlassian_search_issues"
                     (VDict [("jql", VStr q); ("max_results", VInt limit)])))).
Proof.
  unfold search_jira_issues, try_except, bindM, call_tool, ret, lift, search_call.
  destruct (mcp_client log _ _) as [[]|]; reflexivity.
Qed.

Lemma search_branch_run (mcp_client : provider) (py_repr : value -> string)
      (q : string) (log : list call) :
  search_branch mcp_client py_repr q log =
  ((log ++ [search_call q 10])%list,
   let search_results :=
     search_results_of
       (mcp_client log "atlassian_search_issues"
                   (VDict [("jql", VStr q); ("max_results", VInt 10)])) in
   failed <- (if is_dict search_results then str_in "error" search_results else Ok false);;
   if failed then
     reason <- getitem search_results "error";;
     Ok ("Search failed: " ++ str py_repr reason)
   else _format_search_results py_repr search_results).
Proof.
  unfold search_branch, bindM at 1. unfold default_max_results.
  rewrite search_jira_issues_run.
  set (v := search_results_of _). cbv zeta.
  unfold bindM, lift, ret.
  destruct (if is_dict v then str_in "error" v else Ok false) as [[|]|e]; simpl;
    try reflexivity.
  destruct (getitem v "error"); reflexivity.
Qed.

Lemma process_question_key (mcp_client : provider) (py_repr : value -> string)
      (q k : string) (ctx : Context) :
  _extract_issue_key q = Some k ->
  process_question mcp_client py_repr q ctx = lookup_branch mcp_client py_repr k.
Proof.
  intros H. unfold process_question. rewrite H.
  now rewrite (extract_issue_key_nonempty q k H).
Qed.

Lemma process_question_no_key (mcp_client : provider) (py_repr : value -> string)
      (q : string) (ctx : Context) :
  _extract_issue_key q = None ->
  process_question mcp_client py_repr q ctx = search_branch mcp_client py_repr q.
Proof. intros H. unfold process_question. now rewrite H. Qed.

(** ** Claims on the dispatcher *)






Lemma format_solutions_extends (solutions : list entry) :
  forall idx response,
    exists tail, format_solutions idx solutions response = response ++ tail.
Proof.
  induction solutions as [|s rest IH]; intros idx response.
  - exists "". simpl. now rewrite append_nil_r.
  - cbn [format_solutions]. cbv zeta.
    match goal with
    | |- context [format_solutions (S idx) rest ?r] =>
        destruct (IH (S idx) r) as [tail ->]
    end.
    rewrite !append_assoc. eauto.
Qed.

Lemma format_response_ok (py_repr : value -> string) (v : value) (sols : list entry) :
  has_field_bag v = true -> exists s, _format_response py_repr v sols = Ok s.
Proof.
  destruct v as [| | | | | |d]; simpl; try discriminate. unfold bag_ok.
  unfold _format_response. simpl.
  destruct (lookup "fields" d) as [[| | | | | |f]|]; simpl; try discriminate; eauto.
Qed.

(** Whatever [_format_response] returns starts with the issue heading. *)
Lemma format_response_heading (py_repr : value -> string) (v : value)
      (sols : list entry) (s : string) :
  _format_response py_repr v sols = Ok s -> exists tail, s = "**Issue: " ++ tail.
Proof.
  unfold _format_response.
  destruct (get v "key" (VStr "Unknown")) as [key|]; simpl; [|discriminate].
  destruct (get v "fields" (VDict [])) as [f|]; simpl; [|discriminate].
  destruct (get f "summary" (VStr "No summary")) as [summary|]; simpl; [|discriminate].
  intros H. injection H as <-.
  match goal with
  | |- context [format_solutions 1 sols ?r] =>
      destruct (format_solutions_extends sols 1 r) as [tail ->]
  end.
  simpl. eauto.
Qed.

Lemma results_ok_renders (py_repr : value -> string) (r : value) :
  results_ok r = true ->
  exists s,
    (failed <- (if is_dict r then str_in "error" r else Ok false);;
     if failed then
       reason <- getitem r "error";;
       Ok ("Search failed: " ++ str py_repr reason)
     else _format_search_results py_repr r) = Ok s.
Proof.
  assert (Hfalsy : forall v, negb (truthy v) = true ->
            exists s, _format_search_results py_repr v = Ok s).
  { intros v Hv. unfold _format_search_results. rewrite Hv. eauto. }
  unfold results_ok.
  destruct r as [| | | | |l|d]; intros H; cbn [is_dict Py.bind];
    try (now apply Hfalsy).
  - destruct l as [|r l]; [now apply Hfalsy|].
    unfold _format_search_results. cbn [truthy negb len first_five Py.bind].
    rewrite (format_issues_lines py_repr _ H). eauto.
  - cbn [str_in Py.bind]. unfold has_key in *.
    destruct (lookup "error" d) as [x|] eqn:Hx.
    + cbn [getitem]. rewrite Hx. cbn [Py.bind]. eauto.
    + now apply Hfalsy.
Qed.




(** C10. [process_question] takes the issue data [get_issue_details] hands
    back for a failure exactly when that dict has a top-level "error" key: it
    then returns the sentence "Could not retrieve issue ...: " followed by the
    value under that key, also for a record that was retrieved successfully;
    without the key it goes on to the suggestions and the formatted issue,
    which is never that sentence. *)
Theorem process_question_error_key
        (mcp_client : provider) (py_repr : value -> string)
        (q k : string) (ctx : Context) (log : list call) (d : list (string * value)) :
  _extract_issue_key q = Some k ->
  result (get_issue_details mcp_client k log) = Ok (VDict d) ->
  ((exists reason,
       result (process_question mcp_client py_repr q ctx log) =
         Ok ("Could not retrieve issue " ++ k ++ ": " ++ reason))
   <-> has_key "error" d = true) /\
  (forall v, lookup "error" d = Some v ->
     result (process_question mcp_client py_repr q ctx log) =
       Ok ("Could not retrieve issue " ++ k ++ ": " ++ str py_repr v)) /\
  (has_key "error" d = false ->
     result (process_question mcp_client py_repr q ctx log) =
       (solutions <- result (suggest_solutions (VDict d) log);;
        _format_response py_repr (VDict d) solutions)).
Proof.
  intros Hk Hget.
  rewrite get_issue_details_run in Hget. unfold result in Hget; cbn [snd] in Hget.
  injection Hget as Hdata.
  rewrite (process_question_key _ _ _ _ _ Hk), lookup_branch_run.
  unfold result at 1 3 4; cbn [snd]. cbv zeta. rewrite Hdata.
  cbn [str_in Py.bind]. unfold has_key.
  assert (Hlog : result (suggest_solutions (VDict d) log)
                 = result (suggest_solutions (VDict d) [])).
  { rewrite !suggest_solutions_run. reflexivity. }
  destruct (lookup "error" d) as [x|] eqn:Hx.
  - cbn [negb getitem]. rewrite Hx. cbn [Py.bind].
    split; [split; eauto|]. split; [|discriminate].
    intros v Hv. injection Hv as <-. reflexivity.
  - cbn [negb]. rewrite Hlog. split; [|split; [discriminate|reflexivity]].
    split; [|discriminate].
    intros [reason Hr].
    destruct (result (suggest_solutions (VDict d) [])) as [sols|e]; [|discriminate].
    cbn [Py.bind] in Hr.
    destruct (format_response_heading _ _ _ _ Hr) as [tail Ht]. discriminate.
Qed.

Lemma process_question_error_key_witness :
  _extract_issue_key "What's the status of SUP-129?" = Some "SUP-129" /\
  (exists d,
     result (get_issue_details error_field_provider "SUP-129" []) = Ok (VDict d) /\
     has_key "error" d = true) /\
  result (process_question error_field_provider plain_repr
                           "What's the status of SUP-129?" EmptyContext []) =
    Ok "Could not retrieve issue SUP-129: stack trace attached".
Proof.
  split; [reflexivity|]. split; [eexists; split; reflexivity|].
  destruct (process_question_error_key error_field_provider plain_repr
              "What's the status of SUP-129?" "SUP-129" EmptyContext [] _
              eq_refl eq_refl) as (_ & Herr & _).
  apply (Herr (VStr "stack trace attached")). reflexivity.
Defined.

(** ** The shape conditions are exact *)

Lemma results_not_ok_raises (py_repr : value -> string) (r : value) :
  results_ok r = false ->
  exists e,
    (failed <- (if is_dict r then str_in "error" r else Ok false);;
     if failed then
       reason <- getitem r "error";;
       Ok ("Search failed: " ++ str py_repr reason)
     else _format_search_results py_repr r) = Err e.
Proof.
  unfold results_ok, _format_search_results.
  destruct r as [|b|n|f|s|l|d]; intros H; cbn [is_dict Py.bind];
    try apply negb_false_iff in H; try rewrite H; cbn [negb len Py.bind];
    try (eexists; reflexivity); try discriminate.
  - destruct s as [|c s]; [discriminate|]. simpl. eauto.
  - destruct l as [|r l]; [discriminate|].
    cbn [truthy negb len first_five Py.bind]. now apply format_issues_raises.
  - cbn [str_in Py.bind]. apply orb_false_iff in H as [Hk Ht].
    rewrite Hk. apply negb_false_iff in Ht. rewrite Ht. simpl. eauto.
Qed.

Lemma lookup_not_ok_raises (py_repr : value -> string) (k : string) (v : value) :
  lookup_response_ok v = false ->
  exists e,
    (failed <- str_in "error" v;;
     if negb failed then
       solutions <- result (suggest_solutions v []);;
       _format_response py_repr v solutions
     else
       reason <- getitem v "error";;
       Ok ("Could not retrieve issue " ++ k ++ ": " ++ str py_repr reason)) = Err e.
Proof.
  intros H.
  assert (Hs : is_record v = false ->
               exists e, result (suggest_solutions v []) = Err e).
  { intros Hr. destruct (result (suggest_solutions v [])) as [sols|e] eqn:E; [|eauto].
    apply suggest_solutions_domain in E. congruence. }
  destruct v as [| | | |s|l|d]; cbn [str_in Py.bind]; try (eexists; reflexivity).
  - destruct (contains "error" s); cbn [negb]; [simpl; eauto|].
    destruct (Hs eq_refl) as [e ->]. simpl. eauto.
  - destruct (existsb _ l); cbn [negb]; [simpl; eauto|].
    destruct (Hs eq_refl) as [e ->]. simpl. eauto.
  - cbn [lookup_response_ok] in H. apply orb_false_iff in H as [Hk Hr].
    rewrite Hk. cbn [negb]. destruct (Hs Hr) as [e ->]. simpl. eauto.
Qed.

(** [process_question] returns a string exactly when the provider call it
    makes raises or answers with a well-shaped response. *)
Lemma process_question_string_iff
      (mcp_client : provider) (py_repr : value -> string)
      (q : string) (ctx : Context) (log : list call) :
  (exists s, result (process_question mcp_client py_repr q ctx log) = Ok s) <->
  match _extract_issue_key q with
  | Some k =>
      match mcp_client log "atlassian_get_issue" (VDict [("issue_key", VStr k)]) with
      | Returns v => lookup_response_ok v = true
      | Raises _ => True
      end
  | None =>
      match mcp_client log "atlassian_search_issues"
                       (VDict [("jql", VStr q); ("max_results", VInt 10)]) with
      | Returns v => search_response_ok v = true
      | Raises _ => True
      end
  end.
Proof.
  destruct (_extract_issue_key q) as [k|] eqn:Hk.
  - rewrite (process_question_key _ _ _ _ _ Hk), lookup_branch_run.
    unfold result at 1; cbn [snd]. cbv zeta.
    destruct (mcp_client log "atlassian_get_issue" _) as [v|msg].
    + cbn [issue_data_of]. destruct (lookup_response_ok v) eqn:Hv.
      * split; [reflexivity|]. intros _.
        destruct v as [| | | | | |d]; try discriminate.
        cbn [lookup_response_ok] in Hv. cbn [str_in Py.bind].
        unfold has_key in *. destruct (lookup "error" d) as [x|] eqn:Hx.
        -- cbn [negb getitem]. rewrite Hx. cbn [Py.bind]. eauto.
        -- cbn [negb]. simpl in Hv.
           destruct (suggest_solutions_record (VDict d) [] Hv) as (t & p & _ & _ & Hrun).
           rewrite Hrun. unfold result; cbn [snd Py.bind].
           apply format_response_ok. now apply is_record_has_field_bag.
      * destruct (lookup_not_ok_raises py_repr k v Hv) as [e He]. rewrite He.
        split; [intros [s Hs]; discriminate | discriminate].
    + simpl. split; eauto.
  - rewrite (process_question_no_key _ _ _ _ Hk), search_branch_run.
    unfold result; cbn [snd]. cbv zeta.
    destruct (mcp_client log "atlassian_search_issues" _) as [v|msg].
    + destruct (search_response_ok v) eqn:Hv.
      * split; [reflexivity|]. intros _. apply results_ok_renders.
        destruct v; try reflexivity. exact Hv.
      * destruct v as [| | | | | |d]; try discriminate. cbn [search_response_ok] in Hv.
        cbn [search_results_of].
        destruct (results_not_ok_raises py_repr _ Hv) as [e He]. rewrite He.
        split; [intros [s Hs]; discriminate | discriminate].
    + simpl. split; eauto.
Qed.

(** ** The specification's worked examples *)

Example extract_issue_key_samples :
  _extract_issue_key "What's the status of SUP-129?" = Some "SUP-129" /\
  _extract_issue_key "SUP-129a" = None /\
  _extract_issue_key "_SUP-1" = None /\
  _extract_issue_key "aSUP-1 XY-2" = Some "XY-2" /\
  _extract_issue_key "AB-12-34 X" = Some "AB-12" /\
  _extract_issue_key "A-B-1" = Some "B-1" /\
  _extract_issue_key "payment failures" = None.
Proof. repeat split. Qed.

Example status_of_SUP_129 :
  process_question demo_provider plain_repr "What's the status of SUP-129?" EmptyContext [] =
  ([("atlassian_get_issue", VDict [("issue_key", VStr "SUP-129")])],
   Ok ("**Issue: SUP-129**" ++ nl ++
       "Summary: Login fails" ++ nl ++ nl ++
       "**Suggested Solutions:**" ++ nl ++
       "1. This is a high priority issue requiring immediate attention." ++ nl ++
       "   Action: Escalate to team lead and address immediately" ++ nl ++ nl ++
       "2. Review recent code changes and check error logs" ++ nl ++
       "   Action: Run diagnostic tests and reproduce the issue" ++ nl ++ nl)).
Proof. reflexivity. Qed.

Example payment_failures :
  process_question demo_provider plain_repr "payment failures" EmptyContext [] =
  ([("atlassian_search_issues",
     VDict [("jql", VStr "payment failures"); ("max_results", VInt 10)])],
   Ok "No issues found matching your query.").
Proof. reflexivity. Qed.

Example search_failure :
  result (process_question failing_provider plain_repr "payment failures" EmptyContext []) =
  Ok "Search failed: Failed to search issues: connection refused".
Proof. reflexivity. Qed.

(** ** Further properties of the identifier pattern *)



Lemma key_shape_match_alone (m : string) : key_shape m -> key_match_at "" m "".
Proof.
  intros Hs. split; [exact Hs|].
  destruct Hs as (l & d & -> & Hl & Hup & Hd & Hdg).
  split.
  - destruct l as [|c l]; [congruence|]. simpl in Hup |- *.
    apply andb_prop in Hup as [Hc _].
    unfold word_boundary. simpl. now rewrite (is_upper_word c Hc).
  - rewrite last_app. change ("-" ++ d) with (String "-" d). cbn [last].
    destruct d as [|c d]; [congruence|]. simpl in Hdg.
    apply andb_prop in Hdg as [Hc Hdg]. cbn [last].
    destruct (last_all_chars is_digit d c Hdg Hc) as (c' & -> & Hc').
    unfold word_boundary. simpl. now rewrite (is_digit_word c' Hc').
Qed.




(** X3. A string of the identifier's shape, given alone, is extracted as
    itself: asking again with just a key finds that key. *)
Theorem extract_issue_key_of_key (m : string) :
  key_shape m -> _extract_issue_key m = Some m.
Proof.
  intros Hs.
  destruct (key_shape_match_alone m Hs) as (_ & Hb1 & Hb2).
  pose proof (match_here_complete None m "" Hs Hb1 Hb2) as Hc.
  rewrite append_nil_r in Hc.
  unfold _extract_issue_key. destruct m; cbn [search_from]; now rewrite Hc.
Qed.

Lemma extract_issue_key_of_key_witness :
  key_shape "PROJ-123" /\ _extract_issue_key "PROJ-123" = Some "PROJ-123".
Proof.
  assert (Hs : key_shape "PROJ-123")
    by (exists "PROJ", "123"; repeat split; discriminate).
  split; [exact Hs|]. apply (extract_issue_key_of_key "PROJ-123" Hs).
Defined.



(** ** Further properties of the suggestion rules *)

(** X5. [suggest_solutions] returns a list exactly on the records of the data
    model; on anything else (a field bag, type or priority that is present
    but not a dict, a priority name that is a list or dict) it raises. *)
Theorem suggest_solutions_returns_iff (r : value) (log : list call) :
  (exists sols, result (suggest_solutions r log) = Ok sols) <-> is_record r = true.
Proof.
  split.
  - intros [sols H]. exact (suggest_solutions_domain r log sols H).
  - intros H. destruct (suggest_solutions_record r log H) as (t & p & _ & _ & Hrun).
    rewrite Hrun. unfold result; simpl. eauto.
Qed.

Lemma band_table_high (p : value) :
  (3 < band_table p)%Z <-> (p = VStr "High" \/ p = VStr "Highest").
Proof.
  destruct p as [| | | |s| |]; simpl;
    try (split; [lia | intros [H|H]; discriminate]).
  destruct (String.eqb_spec s "Highest") as [->|H1].
  { split; [auto | lia]. }
  destruct (String.eqb_spec s "High") as [->|H2].
  { split; [auto | lia]. }
  assert (Hle : ((if String.eqb s "Medium" then 3
                  else if String.eqb s "Low" then 2
                  else if String.eqb s "Lowest" then 1 else 0) <= 3)%Z).
  { destruct (String.eqb s "Medium"), (String.eqb s "Low"), (String.eqb s "Lowest"); lia. }
  split; [lia|]. intros [H|H]; injection H as ->; congruence.
Qed.

(** X6. For a record, the list starts with the escalating entry exactly when
    the priority name is the string "High" or "Highest"; "Medium", any other
    spelling and a missing priority all get the low entry. *)
Theorem suggest_solutions_high_iff (r : value) (log : list call) (p : value) :
  is_record r = true ->
  priority_name r = Ok p ->
  ((exists rest, result (suggest_solutions r log) = Ok (high_entry :: rest)) <->
   (p = VStr "High" \/ p = VStr "Highest")) /\
  ((exists rest, result (suggest_solutions r log) = Ok (low_entry :: rest)) <->
   (p <> VStr "High" /\ p <> VStr "Highest")).
Proof.
  intros Hr Hp.
  destruct (suggest_solutions_record r log Hr) as (t & p' & _ & Hp' & Hrun).
  rewrite Hp in Hp'. injection Hp' as <-.
  rewrite Hrun. unfold result; cbn [snd]. unfold urgency_entry.
  pose proof (band_table_high p) as Hband.
  destruct (band_table p <=? 3)%Z eqn:Hle.
  - apply Z.leb_le in Hle.
    assert (Hnot : ~ (p = VStr "High" \/ p = VStr "Highest"))
      by (intros H; apply Hband in H; lia).
    split; split.
    + intros [rest H]. discriminate.
    + intros H. now elim Hnot.
    + intros _. split; intros E; apply Hnot; auto.
    + intros _. eauto.
  - apply Z.leb_gt in Hle. apply Hband in Hle.
    split; split.
    + intros _. exact Hle.
    + intros _. eauto.
    + intros [rest H]. discriminate.
    + intros [H1 H2]. destruct Hle; contradiction.
Qed.

Lemma suggest_solutions_high_iff_witness :
  is_record (record_of "SUP-3" "Outage" "" (VStr "Incident") (VStr "Medium")) = true /\
  exists rest,
    result (suggest_solutions
              (record_of "SUP-3" "Outage" "" (VStr "Incident") (VStr "Medium")) [])
    = Ok (low_entry :: rest).
Proof.
  split; [reflexivity|].
  destruct (suggest_solutions_high_iff
              (record_of "SUP-3" "Outage" "" (VStr "Incident") (VStr "Medium")) []
              (VStr "Medium") eq_refl eq_refl) as [_ Hlow].
  apply Hlow. split; discriminate.
Defined.

(** ** Further properties of the formatter *)

Lemma concat_cons (x : string) (l : list string) :
  String.concat "" (x :: l) = x ++ String.concat "" l.
Proof. destruct l; simpl; [now rewrite append_nil_r | reflexivity]. Qed.

Lemma format_solutions_items (solutions : list entry) :
  forall idx response,
    format_solutions idx solutions response =
    response ++ String.concat "" (map solution_item (enumerate_from idx solutions)).
Proof.
  induction solutions as [|s rest IH]; intros idx response.
  - simpl. now rewrite append_nil_r.
  - cbn [format_solutions]. cbv zeta. rewrite IH.
    unfold enumerate_from. cbn [List.length seq combine map].
    rewrite concat_cons. unfold solution_item at 2.
    rewrite !append_assoc. reflexivity.
Qed.

(** X7. [_format_response] returns a string exactly when the issue data has a
    field bag (a dict whose "fields", when present, is a dict), whatever the
    suggestions; otherwise it raises. *)
Theorem format_response_returns_iff (py_repr : value -> string) (v : value)
        (sols : list entry) :
  (exists s, _format_response py_repr v sols = Ok s) <-> has_field_bag v = true.
Proof.
  split; [|apply format_response_ok].
  intros [s H]. unfold _format_response in H.
  destruct v as [| | | | | |d]; try discriminate. simpl in H |- *. unfold bag_ok.
  destruct (lookup "fields" d) as [[]|]; simpl in H; try discriminate; reflexivity.
Qed.

(** X8. For issue data with a field bag, [_format_response] is the heading
    with the record's key ("Unknown" when it has none) and summary ("No
    summary" when it has none), then the suggestions numbered from 1 in the
    order given, each with its suggestion and action. *)
Theorem format_response_layout (py_repr : value -> string) (v : value)
        (sols : list entry) :
  has_field_bag v = true ->
  _format_response py_repr v sols =
  Ok ("**Issue: " ++ str py_repr (shown_key v) ++ "**" ++ nl ++
      "Summary: " ++ str py_repr (shown_summary v) ++ nl ++ nl ++
      "**Suggested Solutions:**" ++ nl ++
      String.concat "" (map solution_item (enumerate_from 1 sols))).
Proof.
  intros H. destruct v as [| | | | | |d]; try discriminate.
  simpl in H. unfold bag_ok in H.
  unfold _format_response, shown_key, shown_summary, field_or. cbn [get Py.bind].
  destruct (lookup "fields" d) as [[| | | | | |f]|]; try discriminate;
    cbn [get Py.bind]; cbv zeta; rewrite format_solutions_items;
    f_equal; rewrite !append_assoc; reflexivity.
Qed.

Lemma format_response_layout_witness :
  has_field_bag bare_record = true /\
  _format_response plain_repr bare_record [low_entry] =
  Ok ("**Issue: SUP-7**" ++ nl ++
      "Summary: No summary" ++ nl ++ nl ++
      "**Suggested Solutions:**" ++ nl ++
      "1. This is a low priority issue. Consider addressing after critical items." ++ nl ++
      "   Action: Schedule for next sprint" ++ nl ++ nl).
Proof.
  split; [reflexivity|].
  rewrite (format_response_layout plain_repr bare_record [low_entry] eq_refl).
  reflexivity.
Defined.

Lemma format_issues_extends (py_repr : value -> string) (issues : list value) :
  forall response s,
    format_issues py_repr issues response = Ok s -> exists tail, s = response ++ tail.
Proof.
  induction issues as [|r rest IH]; intros response s H.
  - simpl in H. injection H as <-. exists "". now rewrite append_nil_r.
  - destruct (has_field_bag r) eqn:Hr.
    + rewrite (format_issues_step _ _ _ _ Hr) in H.
      destruct (IH _ _ H) as [tail ->]. rewrite append_assoc. eauto.
    + destruct (format_issues_raises py_repr (r :: rest)) with (response := response)
        as [e He]; [simpl; now rewrite Hr|]. congruence.
Qed.

(** X9. [_format_search_results] answers "No issues found matching your
    query." exactly for a falsy argument: the empty list, but also [None], an
    empty dict or string, zero and [False]. *)
Theorem format_search_results_empty_iff (py_repr : value -> string) (r : value) :
  _format_search_results py_repr r = Ok "No issues found matching your query."
  <-> truthy r = false.
Proof.
  unfold _format_search_results. split.
  - destruct (truthy r); [|reflexivity]. cbn [negb]. intros H.
    destruct (len r) as [n|]; [|discriminate]. cbn [Py.bind] in H.
    destruct (first_five r) as [shown|]; [|discriminate]. cbn [Py.bind] in H.
    destruct (format_issues_extends _ _ _ _ H) as [tail Ht]. discriminate.
  - intros ->. reflexivity.
Qed.

(** X10. [_format_search_results] returns a string exactly when its argument
    is falsy or is a list whose first five items have a field bag; a
    non-empty dict or string, a non-zero number, or a list with a malformed
    item among the first five makes it raise. *)
Theorem format_search_results_returns_iff (py_repr : value -> string) (r : value) :
  (exists s, _format_search_results py_repr r = Ok s) <-> listing_ok r = true.
Proof.
  unfold listing_ok, _format_search_results.
  destruct (truthy r) eqn:Ht; cbn [negb orb]; [|split; eauto].
  destruct r as [|b|n|f|s|l|d]; cbn [len first_five Py.bind];
    try (split; [intros [x Hx]; discriminate | discriminate]).
  - destruct s as [|c s]; [discriminate|]. simpl.
    split; [intros [x Hx]; discriminate | discriminate].
  - destruct (forallb has_field_bag (firstn 5 l)) eqn:Hall.
    + rewrite (format_issues_lines py_repr _ Hall). split; eauto.
    + destruct (format_issues_raises py_repr _ Hall
                  ("Found " ++ str_of_nat (List.length l) ++ " issue(s):" ++ nl ++ nl))
        as [e He].
      rewrite He. split; [intros [x Hx]; discriminate | discriminate].
Qed.

(** X11. The listing reads nothing beyond the fifth item: two lists of the
    same length with the same first five items give the same outcome, even
    when the later items are not records at all. *)
Theorem format_search_results_first_five (py_repr : value -> string)
        (l1 l2 : list value) :
  List.length l1 = List.length l2 ->
  firstn 5 l1 = firstn 5 l2 ->
  _format_search_results py_repr (VList l1) = _format_search_results py_repr (VList l2).
Proof.
  intros Hlen Hfirst. unfold _format_search_results.
  destruct l1 as [|a l1], l2 as [|b l2]; try discriminate; [reflexivity|].
  cbn [truthy negb len first_five Py.bind]. now rewrite Hlen, Hfirst.
Qed.

Lemma format_search_results_first_five_witness :
  List.length five_records_and_junk = List.length seven_records /\
  firstn 5 five_records_and_junk = firstn 5 seven_records /\
  five_records_and_junk <> seven_records /\
  _format_search_results plain_repr (VList five_records_and_junk) =
  _format_search_results plain_repr (VList seven_records).
Proof.
  split; [reflexivity|]. split; [reflexivity|]. split; [discriminate|].
  apply format_search_results_first_five; reflexivity.
Defined.

(** ** Further properties of the dispatcher *)

(** X12. Whatever the question and the provider, [process_question] makes
    exactly one provider call: the lookup of the extracted key when there is
    one, the search for the whole question otherwise. *)
Theorem process_question_one_call
        (mcp_client : provider) (py_repr : value -> string)
        (q : string) (ctx : Context) (log : list call) :
  exists c,
    trace (process_question mcp_client py_repr q ctx log) = (log ++ [c])%list /\
    ((exists k, _extract_issue_key q = Some k /\
                c = ("atlassian_get_issue", VDict [("issue_key", VStr k)])) \/
     (_extract_issue_key q = None /\
      c = ("atlassian_search_issues",
           VDict [("jql", VStr q); ("max_results", VInt 10)]))).
Proof.
  destruct (_extract_issue_key q) as [k|] eqn:Hk.
  - exists (lookup_call k). split.
    + now rewrite (process_question_key _ _ _ _ _ Hk), lookup_branch_run.
    + left. eauto.
  - exists (search_call q 10). split.
    + now rewrite (process_question_no_key _ _ _ _ Hk), search_branch_run.
    + right. auto.
Qed.

(** X13. A search response that is not a dict does not raise: the [.get] on
    it fails inside the [try], [search_jira_issues] returns the error dict
    with the AttributeError's text, and the dispatcher reports "Search
    failed". *)
Theorem process_question_search_bad_response
        (mcp_client : provider) (py_repr : value -> string)
        (q : string) (ctx : Context) (log : list call) (v : value) :
  _extract_issue_key q = None ->
  mcp_client log "atlassian_search_issues"
             (VDict [("jql", VStr q); ("max_results", VInt 10)]) = Returns v ->
  is_dict v = false ->
  result (search_jira_issues mcp_client q 10 log) =
    Ok (VDict [("error", VStr ("Failed to search issues: '" ++ type_name v
                               ++ "' object has no attribute 'get'"))]) /\
  result (process_question mcp_client py_repr q ctx log) =
    Ok ("Search failed: Failed to search issues: '" ++ type_name v
        ++ "' object has no attribute 'get'").
Proof.
  intros Hk Ho Hv. split.
  - rewrite search_jira_issues_run, Ho. destruct v; try discriminate; reflexivity.
  - rewrite (process_question_no_key _ _ _ _ Hk), search_branch_run, Ho.
    destruct v; try discriminate; reflexivity.
Qed.

Lemma process_question_search_bad_response_witness :
  _extract_issue_key "payment failures" = None /\
  result (process_question none_provider plain_repr "payment failures" EmptyContext []) =
    Ok "Search failed: Failed to search issues: 'NoneType' object has no attribute 'get'".
Proof.
  split; [reflexivity|].
  apply (process_question_search_bad_response none_provider plain_repr
           "payment failures" EmptyContext [] VNone); reflexivity.
Defined.

(** X14. When the search response is a dict whose "issues" is missing or
    falsy ([None], an empty list), the answer is "No issues found matching
    your query.". *)
Theorem process_question_no_issues
        (mcp_client : provider) (py_repr : value -> string)
        (q : string) (ctx : Context) (log : list call) (d : list (string * value)) :
  _extract_issue_key q = None ->
  mcp_client log "atlassian_search_issues"
             (VDict [("jql", VStr q); ("max_results", VInt 10)]) = Returns (VDict d) ->
  truthy (field_or d "issues" (VList [])) = false ->
  result (process_question mcp_client py_repr q ctx log) =
    Ok "No issues found matching your query.".
Proof.
  intros Hk Ho Hf.
  rewrite (process_question_no_key _ _ _ _ Hk), search_branch_run, Ho.
  unfold result; cbn [snd search_results_of]. cbv zeta.
  assert (Hfmt : _format_search_results py_repr (field_or d "issues" (VList []))
                 = Ok "No issues found matching your query.")
    by (now apply format_search_results_empty_iff).
  destruct (field_or d "issues" (VList [])) as [| | | | | |d'];
    cbn [is_dict Py.bind]; try exact Hfmt.
  destruct d'; [|discriminate]. exact Hfmt.
Qed.

Lemma process_question_no_issues_witness :
  _extract_issue_key "payment failures" = None /\
  result (process_question empty_body_provider plain_repr "payment failures"
                           EmptyContext []) =
    Ok "No issues found matching your query.".
Proof.
  split; [reflexivity|].
  apply (process_question_no_issues empty_body_provider plain_repr
           "payment failures" EmptyContext [] [("total", VInt 0)]); reflexivity.
Defined.

(** X15. When the lookup returns a record without an "error" key, the answer
    is the formatted issue: the heading carries the record's own key and
    summary (not the key found in the question), followed by the urgency
    entry of its priority and the entry of its type, numbered from 1. *)
Theorem process_question_issue_report
        (mcp_client : provider) (py_repr : value -> string)
        (q k : string) (ctx : Context) (log : list call) (v : value) :
  _extract_issue_key q = Some k ->
  mcp_client log "atlassian_get_issue" (VDict [("issue_key", VStr k)]) = Returns v ->
  is_record v = true ->
  str_in "error" v = Ok false ->
  exists t p,
    issuetype_name v = Ok t /\ priority_name v = Ok p /\
    result (process_question mcp_client py_repr q ctx log) =
      Ok ("**Issue: " ++ str py_repr (shown_key v) ++ "**" ++ nl ++
          "Summary: " ++ str py_repr (shown_summary v) ++ nl ++ nl ++
          "**Suggested Solutions:**" ++ nl ++
          String.concat ""
            (map solution_item
                 (enumerate_from 1 (urgency_entry (band_table p) :: type_entries t)))).
Proof.
  intros Hk Ho Hr He.
  destruct (suggest_solutions_record v [] Hr) as (t & p & Ht & Hp & Hrun).
  exists t, p. split; [exact Ht|]. split; [exact Hp|].
  rewrite (process_question_key _ _ _ _ _ Hk), lookup_branch_run, Ho.
  unfold result at 1; cbn [snd issue_data_of]. cbv zeta.
  rewrite He. cbn [Py.bind negb]. rewrite Hrun. unfold result; cbn [snd Py.bind].
  apply format_response_layout. now apply is_record_has_field_bag.
Qed.

Lemma process_question_issue_report_witness :
  _extract_issue_key "Is OPS-1 done?" = Some "OPS-1" /\
  result (process_question demo_provider plain_repr "Is OPS-1 done?" EmptyContext []) =
    Ok ("**Issue: SUP-129**" ++ nl ++
        "Summary: Login fails" ++ nl ++ nl ++
        "**Suggested Solutions:**" ++ nl ++
        "1. This is a high priority issue requiring immediate attention." ++ nl ++
        "   Action: Escalate to team lead and address immediately" ++ nl ++ nl ++
        "2. Review recent code changes and check error logs" ++ nl ++
        "   Action: Run diagnostic tests and reproduce the issue" ++ nl ++ nl).
Proof.
  split; [reflexivity|].
  destruct (process_question_issue_report demo_provider plain_repr "Is OPS-1 done?"
              "OPS-1" EmptyContext [] bug_high eq_refl eq_refl eq_refl eq_refl)
    as (t & p & Ht & Hp & Hres).
  injection Ht as <-. injection Hp as <-. rewrite Hres. reflexivity.
Defined.

(** X16. When the search returns a non-empty list of records, the answer is
    the count header and the lines of the first five; the count is that of
    the list as the provider returned it, which the code does not cut to the
    limit it asked for. *)
Theorem process_question_search_listing
        (mcp_client : provider) (py_repr : value -> string)
        (q : string) (ctx : Context) (log : list call)
        (d : list (string * value)) (l : list value) :
  _extract_issue_key q = None ->
  mcp_client log "atlassian_search_issues"
             (VDict [("jql", VStr q); ("max_results", VInt 10)]) = Returns (VDict d) ->
  lookup "issues" d = Some (VList l) ->
  l <> [] ->
  forallb has_field_bag (firstn 5 l) = true ->
  result (process_question mcp_client py_repr q ctx log) =
    Ok (("Found " ++ str_of_nat (List.length l) ++ " issue(s):" ++ nl ++ nl)
        ++ String.concat "" (map (issue_line py_repr) (firstn 5 l))).
Proof.
  intros Hk Ho Hi Hne Hall.
  rewrite (process_question_no_key _ _ _ _ Hk), search_branch_run, Ho.
  unfold result; cbn [snd search_results_of]. cbv zeta.
  unfold field_or. rewrite Hi. cbn [is_dict Py.bind].
  unfold _format_search_results. destruct l as [|r l]; [now elim Hne|].
  cbn [truthy negb len first_five Py.bind].
  now apply format_issues_lines.
Qed.

Lemma process_question_search_listing_witness :
  _extract_issue_key "open tasks" = None /\
  result (process_question generous_provider plain_repr "open tasks" EmptyContext []) =
    Ok ("Found 12 issue(s):" ++ nl ++ nl ++
        "- T-1: Task 1" ++ nl ++
        "- T-2: Task 2" ++ nl ++
        "- T-3: Task 3" ++ nl ++
        "- T-4: Task 4" ++ nl ++
        "- T-5: Task 5" ++ nl).
Proof.
  split; [reflexivity|].
  assert (Hne : map (fun n => record_of ("T-" ++ str_of_nat n) ("Task " ++ str_of_nat n) ""
                                        (VStr "Task") (VStr "Medium")) (seq 1 12) <> [])
    by discriminate.
  rewrite (process_question_search_listing generous_provider plain_repr "open tasks"
             EmptyContext [] _ _ eq_refl eq_refl eq_refl Hne eq_refl).
  reflexivity.
Defined.

(** X17. When the lookup returns something that is neither a dict, a str nor
    a list ([None], a number), the test ["error" not in issue_data] raises a
    TypeError, which leaves [process_question]. *)
Theorem process_question_lookup_not_container
        (mcp_client : provider) (py_repr : value -> string)
        (q k : string) (ctx : Context) (log : list call) (v : value) :
  _extract_issue_key q = Some k ->
  mcp_client log "atlassian_get_issue" (VDict [("issue_key", VStr k)]) = Returns v ->
  is_container v = false ->
  exists e,
    result (process_question mcp_client py_repr q ctx log) = Err e /\
    exn_cls e = TypeError.
Proof.
  intros Hk Ho Hv.
  rewrite (process_question_key _ _ _ _ _ Hk), lookup_branch_run, Ho.
  unfold result; cbn [snd issue_data_of]. cbv zeta.
  destruct v; try discriminate; cbn [str_in Py.bind]; eexists; split; reflexivity.
Qed.

Lemma process_question_lookup_not_container_witness :
  _extract_issue_key "What's the status of SUP-129?" = Some "SUP-129" /\
  exists e,
    result (process_question none_provider plain_repr "What's the status of SUP-129?"
                             EmptyContext []) = Err e /\
    exn_cls e = TypeError.
Proof.
  split; [reflexivity|].
  apply (process_question_lookup_not_container none_provider plain_repr
           "What's the status of SUP-129?" "SUP-129" EmptyContext [] VNone); reflexivity.
Defined.

(** X18. Of a search response that is a dict the dispatcher sees only the
    "issues": two responses with the same "issues" get the same answer, so a
    top-level "error" field of a search response (unlike one of a lookup
    response) is ignored. *)
Theorem process_question_search_reads_issues_only
        (mcp1 mcp2 : provider) (py_repr : value -> string)
        (q : string) (ctx : Context) (log1 log2 : list call)
        (d1 d2 : list (string * value)) :
  _extract_issue_key q = None ->
  mcp1 log1 "atlassian_search_issues"
       (VDict [("jql", VStr q); ("max_results", VInt 10)]) = Returns (VDict d1) ->
  mcp2 log2 "atlassian_search_issues"
       (VDict [("jql", VStr q); ("max_results", VInt 10)]) = Returns (VDict d2) ->
  lookup "issues" d1 = lookup "issues" d2 ->
  result (process_question mcp1 py_repr q ctx log1) =
  result (process_question mcp2 py_repr q ctx log2).
Proof.
  intros Hk H1 H2 Hi.
  rewrite !(process_question_no_key _ _ _ _ Hk), !search_branch_run, H1, H2.
  unfold result; cbn [snd search_results_of]. unfold field_or. now rewrite Hi.
Qed.

Lemma process_question_search_reads_issues_only_witness :
  _extract_issue_key "payment failures" = None /\
  result (process_question noisy_provider plain_repr "payment failures" EmptyContext []) =
  result (process_question demo_provider plain_repr "payment failures" EmptyContext []) /\
  result (process_question noisy_provider plain_repr "payment failures" EmptyContext []) =
    Ok "No issues found matching your query.".
Proof.
  split; [reflexivity|]. split; [|reflexivity].
  apply (process_question_search_reads_issues_only noisy_provider demo_provider plain_repr
           "payment failures" EmptyContext [] []
           [("error", VStr "partial outage"); ("issues", VList [])]
           [("issues", VList [])]); reflexivity.
Defined.
